(** * Extractive question answering scripts: a shallow embedding

    The repository holds two Python scripts,
    [Basic_Haystack_Pipelines.py] and [Extractive_QA_with_Chunking.py].
    Each one builds an indexing pipeline (document embedder, then
    document writer), runs it on hard-coded text, builds a query
    pipeline (text embedder, retriever, extractive reader), runs it on a
    hard-coded query and prints the [data] of the first answer.

    The scripts are embedded as programs in an error monad over the
    state of the one document store each script allocates.  The
    pipeline framework, the store, the embedders, the retriever and the
    reader are imported by the scripts and are not part of the
    repository; their interface is modelled in [Framework] from the
    contract the specification states, and the pretrained models and
    the text splitter are fields of the class [Backend]. *)

From Stdlib Require Import String Ascii List Bool Arith Lia.
From Stdlib Require Import QArith Sorted Permutation.
Import ListNotations.

Close Scope Q_scope.
Open Scope string_scope.
Open Scope list_scope.

(** ** Python values the scripts handle: exceptions and dictionaries *)

Inductive exn : Type :=
| KeyError (key : string)
| IndexError
| ValueError (msg : string)
| TypeError (msg : string)
| PipelineRuntimeError (msg : string).

Inductive Res (A : Type) : Type :=
| Ok (a : A)
| Raise (e : exn).

Arguments Ok {A} a.
Arguments Raise {A} e.

Definition bind {A B : Type} (m : Res A) (k : A -> Res B) : Res B :=
  match m with
  | Ok a => k a
  | Raise e => Raise e
  end.

Notation "x <- m ;; k" := (bind m (fun x => k))
  (at level 61, m at next level, right associativity).

(** A [dict] keeps its keys in insertion order, as Python's does. *)
Definition dict (V : Type) : Type := list (string * V).

Fixpoint dict_get {V : Type} (k : string) (d : dict V) : option V :=
  match d with
  | [] => None
  | (k', v) :: d' => if String.eqb k k' then Some v else dict_get k d'
  end.

Fixpoint dict_set {V : Type} (k : string) (v : V) (d : dict V) : dict V :=
  match d with
  | [] => [(k, v)]
  | (k', v') :: d' =>
      if String.eqb k k' then (k, v) :: d' else (k', v') :: dict_set k v d'
  end.

Definition keys {V : Type} (d : dict V) : list string := map fst d.

Definition values {V : Type} (d : dict V) : list V := map snd d.

Definition mem (k : string) (l : list string) : bool :=
  existsb (String.eqb k) l.

(** [d[k]] *)
Definition getitem {V : Type} (k : string) (d : dict V) : Res V :=
  match dict_get k d with
  | Some v => Ok v
  | None => Raise (KeyError k)
  end.

(** [l[i]] for a list and a non-negative index *)
Definition index {A : Type} (l : list A) (i : nat) : Res A :=
  match nth_error l i with
  | Some a => Ok a
  | None => Raise IndexError
  end.

(** [t[s:e]] for a string and non-negative bounds: the slice is clamped
    to the string, and empty when [e <= s]. *)
Definition slice (s e : nat) (t : string) : string := substring s (e - s) t.

(** [sorted(l, key=key, reverse=True)]: decreasing keys, elements with
    equal keys in their original order. *)
Section SortedReverse.
Context {A : Type} (key : A -> Q).

Fixpoint insert_desc (x : A) (l : list A) : list A :=
  match l with
  | [] => [x]
  | y :: l' =>
      if Qle_bool (key y) (key x) then x :: l else y :: insert_desc x l'
  end.

Definition sorted_reverse (l : list A) : list A :=
  fold_right insert_desc [] l.

End SortedReverse.

(** ** The framework the scripts import *)

Module Framework.

(** Modelled from the spec: the framework's [Document], a text record
    that may carry a vector (its embedding) and, once retrieved, the
    similarity score it was retrieved with. *)
Record Document : Type := {
  content : string;
  embedding : option (list Q);
  score : option Q
}.

(** [Document(content=val)] *)
Definition Document_of_content (val : string) : Document :=
  {| content := val; embedding := None; score := None |}.

(** Modelled from the spec: an answer of the extractive reader, a span
    of one of the passages with a confidence score. *)
Record ExtractedAnswer : Type := {
  data : string;
  answer_query : string;
  answer_score : Q;
  document : Document;
  span_start : nat;
  span_end : nat
}.

(** The pretrained models and the tokenizer-aware splitter: external
    artefacts the scripts name by a configuration string.
    - [encode model text]: the vector the sentence-embedding model
      [model] gives [text];
    - [similarity]: the store's similarity of a query vector and a
      stored vector;
    - [propose_spans model query passage]: the (start, end, confidence)
      triples the reading-comprehension model [model] ([None]: the
      framework's default model) proposes for [query] in [passage];
    - [split_text encoding_name chunk_size text]: the segments of the
      character splitter built by [from_tiktoken_encoder];
    - [default_retriever_top_k], [default_reader_top_k]: the [top_k] the
      retriever and the reader fall back on when a run gives none (the
      scripts always give one).
    Scores and vector entries are rationals: the embedding abstracts
    from floating-point rounding. *)
Class Backend : Type := {
  encode : string -> string -> list Q;
  similarity : list Q -> list Q -> Q;
  propose_spans : option string -> string -> string -> list (nat * nat * Q);
  split_text : string -> nat -> string -> list string;
  default_retriever_top_k : nat;
  default_reader_top_k : nat
}.

(** Modelled from the spec: the in-memory document store, a container
    of text records with their vectors, in the order they were written.
    [InMemoryDocumentStore()] is the empty store. *)
Definition DocumentStore : Type := list Document.

Definition InMemoryDocumentStore : DocumentStore := [].

(** Modelled from the spec: the store accepts the records it is given;
    the writer reports how many it wrote. *)
Definition write_documents (store : DocumentStore) (docs : list Document)
  : DocumentStore * nat :=
  (store ++ docs, length docs).

Section Components.
Context {B : Backend}.

(** Modelled from the spec: the document embedder attaches to each
    document the vector of its text. *)
Definition embed_document (model : string) (d : Document) : Document :=
  {| content := content d;
     embedding := Some (encode model (content d));
     score := score d |}.

(** The similarity of a stored record to the query vector; a record
    without a vector takes no part in retrieval. *)
Definition scored (query_embedding : list Q) (d : Document) : option Document :=
  match embedding d with
  | Some v =>
      Some {| content := content d;
              embedding := Some v;
              score := Some (similarity query_embedding v) |}
  | None => None
  end.

Fixpoint filter_map {X Y : Type} (f : X -> option Y) (l : list X) : list Y :=
  match l with
  | [] => []
  | x :: l' =>
      match f x with
      | Some y => y :: filter_map f l'
      | None => filter_map f l'
      end
  end.

Definition score_of (d : Document) : Q :=
  match score d with
  | Some s => s
  | None => 0
  end.

(** Modelled from the spec: nearest-neighbour retrieval, the [top_k]
    stored records most similar to the query vector, in decreasing
    similarity order. *)
Definition embedding_retrieval (store : DocumentStore)
  (query_embedding : list Q) (top_k : nat) : list Document :=
  firstn top_k (sorted_reverse score_of (filter_map (scored query_embedding) store)).

(** The answers the reading model proposes in one passage: each span is
    cut out of the passage's text. *)
Definition answers_in (model : option string) (query : string) (d : Document)
  : list ExtractedAnswer :=
  map (fun '(s, e, p) =>
         {| data := slice s e (content d);
            answer_query := query;
            answer_score := p;
            document := d;
            span_start := s;
            span_end := e |})
      (propose_spans model query (content d)).

(** Modelled from the spec: extractive answering, the [top_k] answer
    spans of the candidate passages ranked by confidence. *)
Definition extract_answers (model : option string) (query : string)
  (documents : list Document) (top_k : nat) : list ExtractedAnswer :=
  firstn top_k
    (sorted_reverse answer_score (flat_map (answers_in model query) documents)).

End Components.

(** *** Components and their sockets *)

(** Modelled from the spec: the framework's component classes the
    scripts instantiate, each with the configuration its call site
    passes ([ExtractiveReader None] is [ExtractiveReader()], the reader
    on the framework's default model).  The writer and the retriever
    are built on [document_store], the one store of the script, which
    the runs below thread as their state. *)
Inductive component : Type :=
| SentenceTransformersDocumentEmbedder (model : string)
| SentenceTransformersTextEmbedder (model : string)
| DocumentWriter
| InMemoryEmbeddingRetriever
| ExtractiveReader (model : option string).

(** Modelled from the spec: what travels between components. *)
Inductive value : Type :=
| VText (s : string)
| VInt (n : nat)
| VEmbedding (v : list Q)
| VDocuments (ds : list Document)
| VAnswers (l : list ExtractedAnswer).

(** Modelled from the spec: the input and output sockets the scripts'
    [connect] calls and run arguments name. *)
Definition input_sockets (c : component) : list string :=
  match c with
  | SentenceTransformersDocumentEmbedder _ => ["documents"]
  | SentenceTransformersTextEmbedder _ => ["text"]
  | DocumentWriter => ["documents"]
  | InMemoryEmbeddingRetriever => ["query_embedding"; "top_k"]
  | ExtractiveReader _ => ["query"; "documents"; "top_k"]
  end.

Definition output_sockets (c : component) : list string :=
  match c with
  | SentenceTransformersDocumentEmbedder _ => ["documents"]
  | SentenceTransformersTextEmbedder _ => ["embedding"]
  | DocumentWriter => ["documents_written"]
  | InMemoryEmbeddingRetriever => ["documents"]
  | ExtractiveReader _ => ["answers"]
  end.

Definition required (k : string) (inputs : dict value) : Res value :=
  match dict_get k inputs with
  | Some v => Ok v
  | None => Raise (ValueError ("Missing input " ++ k))
  end.

Definition as_text (v : value) : Res string :=
  match v with
  | VText s => Ok s
  | _ => Raise (TypeError "str")
  end.

Definition as_int (v : value) : Res nat :=
  match v with
  | VInt n => Ok n
  | _ => Raise (TypeError "int")
  end.

Definition as_embedding (v : value) : Res (list Q) :=
  match v with
  | VEmbedding e => Ok e
  | _ => Raise (TypeError "List[float]")
  end.

Definition as_documents (v : value) : Res (list Document) :=
  match v with
  | VDocuments ds => Ok ds
  | _ => Raise (TypeError "List[Document]")
  end.

Definition as_answers (v : value) : Res (list ExtractedAnswer) :=
  match v with
  | VAnswers l => Ok l
  | _ => Raise (TypeError "List[ExtractedAnswer]")
  end.

(** [top_k] when the caller gives it, the component's own otherwise. *)
Definition top_k_or (default : nat) (inputs : dict value) : Res nat :=
  match dict_get "top_k" inputs with
  | Some v => as_int v
  | None => Ok default
  end.

(** Modelled from the spec: one run of a component on its inputs, its
    outputs by socket and the store it leaves.  Only the writer changes
    the store. *)
Definition run_component {B : Backend} (c : component) (inputs : dict value)
  (store : DocumentStore) : Res (dict value * DocumentStore) :=
  match c with
  | SentenceTransformersDocumentEmbedder model =>
      v <- required "documents" inputs ;;
      docs <- as_documents v ;;
      Ok ([("documents", VDocuments (map (embed_document model) docs))], store)
  | SentenceTransformersTextEmbedder model =>
      v <- required "text" inputs ;;
      text <- as_text v ;;
      Ok ([("embedding", VEmbedding (encode model text))], store)
  | DocumentWriter =>
      v <- required "documents" inputs ;;
      docs <- as_documents v ;;
      let (store', n) := write_documents store docs in
      Ok ([("documents_written", VInt n)], store')
  | InMemoryEmbeddingRetriever =>
      v <- required "query_embedding" inputs ;;
      q <- as_embedding v ;;
      top_k <- top_k_or default_retriever_top_k inputs ;;
      Ok ([("documents", VDocuments (embedding_retrieval store q top_k))], store)
  | ExtractiveReader model =>
      vq <- required "query" inputs ;;
      query <- as_text vq ;;
      vd <- required "documents" inputs ;;
      docs <- as_documents vd ;;
      top_k <- top_k_or default_reader_top_k inputs ;;
      Ok ([("answers", VAnswers (extract_answers model query docs top_k))], store)
  end.

(** *** Pipelines *)

(** A socket is named by its component and its own name. *)
Definition socket : Type := (string * string)%type.

(** Modelled from the spec: the framework's pipeline, a container of
    named components, in the order they were added, and of connections
    from an output socket to an input socket. *)
Record Pipeline : Type := {
  components : dict component;
  connections : list (socket * socket)
}.

(** [Pipeline()] *)
Definition Pipeline_new : Pipeline :=
  {| components := []; connections := [] |}.

(** Modelled from the spec: [p.add_component(instance=instance,
    name=name)]; a name is used once. *)
Definition add_component (instance : component) (name : string) (p : Pipeline)
  : Res Pipeline :=
  if mem name (keys (components p))
  then Raise (ValueError ("A component named " ++ name ++ " already exists"))
  else Ok {| components := components p ++ [(name, instance)];
             connections := connections p |}.

(** ["component.socket"], split at its first dot. *)
Fixpoint parse_connect_string (s : string) : option socket :=
  match s with
  | EmptyString => None
  | String c s' =>
      if Ascii.eqb c "."%char then Some (EmptyString, s')
      else match parse_connect_string s' with
           | Some (name, sock) => Some (String c name, sock)
           | None => None
           end
  end.

(** Modelled from the spec: [p.connect(sender, receiver)]; both ends
    must name a socket of a component of the pipeline. *)
Definition connect (sender receiver : string) (p : Pipeline) : Res Pipeline :=
  match parse_connect_string sender, parse_connect_string receiver with
  | Some (sc, ss), Some (rc, rs) =>
      match dict_get sc (components p), dict_get rc (components p) with
      | Some sci, Some rci =>
          if mem ss (output_sockets sci) && mem rs (input_sockets rci)
          then Ok {| components := components p;
                     connections := connections p ++ [((sc, ss), (rc, rs))] |}
          else Raise (ValueError "no such socket")
      | _, _ => Raise (ValueError "component not found in the pipeline")
      end
  | _, _ => Raise (ValueError "expected component.socket")
  end.

(** The argument of [run]: a dictionary per component, as the query
    run passes, or a flat dictionary of input names, as the indexing
    run passes. *)
Inductive run_data : Type :=
| Nested (d : dict (dict value))
| Flat (d : dict value).

Definition deliver (name sock : string) (v : value) (box : dict (dict value))
  : dict (dict value) :=
  dict_set name
    (dict_set sock v (match dict_get name box with Some i => i | None => [] end))
    box.

(** The input sockets of [name] that a connection feeds. *)
Definition connected_inputs (conns : list (socket * socket)) (name : string)
  : list string :=
  map (fun c => snd (snd c))
      (filter (fun c => String.eqb (fst (snd c)) name) conns).

(** Modelled from the spec: a flat entry goes to every component that
    has an input socket of that name which no connection feeds. *)
Definition resolve_flat (p : Pipeline) (d : dict value) : dict (dict value) :=
  fold_left
    (fun box kv =>
       fold_left
         (fun box nc =>
            if mem (fst kv) (input_sockets (snd nc))
               && negb (mem (fst kv) (connected_inputs (connections p) (fst nc)))
            then deliver (fst nc) (fst kv) (snd kv) box
            else box)
         (components p) box)
    d [].

Definition prepare (p : Pipeline) (data : run_data) : Res (dict (dict value)) :=
  match data with
  | Nested d =>
      if forallb (fun k => mem k (keys (components p))) (keys d)
      then Ok d
      else Raise (ValueError "input for a component that is not in the pipeline")
  | Flat d => Ok (resolve_flat p d)
  end.

(** The components whose outputs [name] waits for. *)
Definition senders (conns : list (socket * socket)) (name : string) : list string :=
  map (fun c => fst (fst c))
      (filter (fun c => String.eqb (fst (snd c)) name) conns).

(** Modelled from the spec: a component can run once every component
    that feeds it has run. *)
Definition ready (conns : list (socket * socket)) (pending : list string)
  (name : string) : bool :=
  forallb (fun s => negb (mem s pending)) (senders conns name).

Fixpoint pick_ready (conns : list (socket * socket)) (pending : list string)
  (todo : dict component) : option (string * component * dict component) :=
  match todo with
  | [] => None
  | (name, c) :: rest =>
      if ready conns pending name then Some (name, c, rest)
      else match pick_ready conns pending rest with
           | Some (n, c', rest') => Some (n, c', (name, c) :: rest')
           | None => None
           end
  end.

(** Where the output [sock] of [name] is sent. *)
Definition receivers (conns : list (socket * socket)) (name sock : string)
  : list socket :=
  map snd
      (filter (fun c => String.eqb (fst (fst c)) name && String.eqb (snd (fst c)) sock)
              conns).

(** Modelled from the spec: an output goes to the sockets it is
    connected to; an output no connection consumes is part of the
    pipeline's result. *)
Definition route (conns : list (socket * socket)) (name : string)
  (out : dict value) (boxes : dict (dict value) * dict (dict value))
  : dict (dict value) * dict (dict value) :=
  fold_left
    (fun st kv =>
       match receivers conns name (fst kv) with
       | [] => (fst st, deliver name (fst kv) (snd kv) (snd st))
       | rs =>
           (fold_left (fun box r => deliver (fst r) (snd r) (snd kv) box) rs (fst st),
            snd st)
       end)
    out boxes.

(** A finished run: the result dictionary, the store the run leaves,
    and the component runs in the order they happened, each with the
    inputs it ran on (kept for the statements about the order of the
    steps; the scripts read [result] only). *)
Record Run : Type := {
  result : dict (dict value);
  steps : list (string * dict value);
  store_after : DocumentStore
}.

Fixpoint run_loop {B : Backend} (fuel : nat) (conns : list (socket * socket))
  (todo : dict component) (inbox : dict (dict value)) (acc : Run) : Res Run :=
  match todo with
  | [] => Ok acc
  | _ :: _ =>
      match fuel with
      | O => Raise (PipelineRuntimeError "the pipeline did not finish")
      | S fuel' =>
          match pick_ready conns (keys todo) todo with
          | None => Raise (PipelineRuntimeError "no component can run")
          | Some (name, c, rest) =>
              let inputs :=
                match dict_get name inbox with Some i => i | None => [] end in
              r <- run_component c inputs (store_after acc) ;;
              let boxes := route conns name (fst r) (inbox, result acc) in
              run_loop fuel' conns rest (fst boxes)
                {| result := snd boxes;
                   steps := steps acc ++ [(name, inputs)];
                   store_after := snd r |}
          end
      end
  end.

(** Modelled from the spec: [p.run(data)] on the store [store]; the
    components run one at a time, each as soon as it can, until none is
    left. *)
Definition run_traced {B : Backend} (p : Pipeline) (data : run_data)
  (store : DocumentStore) : Res Run :=
  inbox <- prepare p data ;;
  run_loop (length (components p)) (connections p) (components p) inbox
    {| result := []; steps := []; store_after := store |}.

Definition run {B : Backend} (p : Pipeline) (data : run_data)
  (store : DocumentStore) : Res (dict (dict value) * DocumentStore) :=
  r <- run_traced p data store ;;
  Ok (result r, store_after r).

End Framework.

Import Framework.

(** ** [Basic_Haystack_Pipelines.py] *)

Module Basic.

Definition sample_texts : dict string :=
  [ ("text1",
     "In 2023, the GDP of Country A grew by 3.5%, reaching a total of $1.5 trillion. This growth is attributed to increased consumer spending and a booming technology sector.");
    ("text2",
     "As of 2024, the population of City B is approximately 2.3 million, reflecting an increase of 4% from the previous year. The city has implemented new housing policies to accommodate the growing population.");
    ("text3",
     "In the 2022 season, Team C won 28 out of 50 games, achieving a win rate of 56%. They finished first in their division and qualified for the playoffs.");
    ("text4",
     "According to the latest environmental report, Company D reduced its carbon emissions by 20% over the past five years, bringing the total emissions down to 80,000 tons per year.");
    ("text5",
     "In 2023, School E had a graduation rate of 92%, with 300 out of 325 students successfully completing their programs. The school also reported an increase in student enrollment by 15%.") ].

(** Step 1: one [Document] per value of the dictionary. *)
Definition documents : list Document :=
  map Document_of_content (values sample_texts).

Definition model : string := "sentence-transformers/multi-qa-mpnet-base-dot-v1".

Definition document_store : DocumentStore := InMemoryDocumentStore.

(** Step 2: the indexing pipeline. *)
Definition indexing_pipeline : Res Pipeline :=
  p <- Ok Pipeline_new ;;
  p <- add_component (SentenceTransformersDocumentEmbedder model) "embedder" p ;;
  p <- add_component DocumentWriter "writer" p ;;
  connect "embedder.documents" "writer.documents" p.

Definition indexing_input : run_data :=
  Flat [("documents", VDocuments documents)].

(** Step 3: the question answering pipeline.  [reader.warm_up()] loads
    the pretrained model and changes no value modelled here. *)
Definition retriever : component := InMemoryEmbeddingRetriever.

Definition reader : component := ExtractiveReader None.

Definition extractive_qa_pipeline : Res Pipeline :=
  p <- Ok Pipeline_new ;;
  p <- add_component (SentenceTransformersTextEmbedder model) "embedder" p ;;
  p <- add_component retriever "retriever" p ;;
  p <- add_component reader "reader" p ;;
  p <- connect "embedder.embedding" "retriever.query_embedding" p ;;
  connect "retriever.documents" "reader.documents" p.

(** Step 4: the query and the argument of the run. *)
Definition query : string := "What was the graduation rate for School E in 2023?".

Definition qa_input : run_data :=
  Nested [ ("embedder", [("text", VText query)]);
           ("retriever", [("top_k", VInt 3)]);
           ("reader", [("query", VText query); ("top_k", VInt 1)]) ].

(** Step 5: [result["reader"]["answers"][0].data] *)
Definition response (result : dict (dict value)) : Res string :=
  r <- getitem "reader" result ;;
  v <- getitem "answers" r ;;
  answers <- as_answers v ;;
  a <- index answers 0 ;;
  Ok (data a).

(** The script from top to bottom; its value is [response], which the
    last line prints after ["Response: "]. *)
Definition main {B : Backend} : Res string :=
  ip <- indexing_pipeline ;;
  indexed <- run ip indexing_input document_store ;;
  qp <- extractive_qa_pipeline ;;
  answered <- run qp qa_input (snd indexed) ;;
  response (fst answered).

End Basic.

(** ** [Extractive_QA_with_Chunking.py] *)

Module Chunking.

(** The lines of the triple-quoted literal [text]; the literal opens
    and closes with a line break. *)
Definition text_lines : list string :=
  [ "";
    "In 2023, the global technology industry saw a remarkable transformation driven by advancements in artificial intelligence, ";
    "machine learning, and the Internet of Things (IoT). According to the International Data Corporation (IDC), global spending ";
    "on AI systems is projected to reach $500 billion, demonstrating a compound annual growth rate (CAGR) of 20% over the next ";
    "five years. Companies across various sectors have begun to integrate AI into their operations, leading to increased efficiency ";
    "and reduced costs.";
    "";
    "In the automotive industry, electric vehicles (EVs) gained significant traction, with sales increasing by 35% compared to ";
    "2022. Major automakers such as Tesla, Ford, and General Motors announced plans to expand their EV offerings. In addition, ";
    "governments worldwide have implemented incentives to promote the adoption of electric vehicles, including tax credits and ";
    "subsidies. The push for sustainable transportation solutions is also supported by advancements in battery technology, ";
    "which have improved the range and affordability of EVs.";
    "";
    "The healthcare sector has also experienced a significant transformation due to technology. Telehealth services surged in ";
    "popularity, with a report from McKinsey & Company indicating that 40% of patients utilized telehealth options in 2023. ";
    "This shift has made healthcare more accessible, particularly for individuals in rural areas. Furthermore, artificial ";
    "intelligence has been instrumental in improving diagnostic accuracy, with AI algorithms capable of analyzing medical images ";
    "and predicting patient outcomes with high precision.";
    "";
    "In the finance sector, blockchain technology continued to gain momentum. The total market capitalization of cryptocurrencies ";
    "surpassed $2 trillion, with Bitcoin and Ethereum remaining the most dominant currencies. Traditional financial institutions ";
    "have begun to explore blockchain solutions for various applications, including cross-border payments, smart contracts, and ";
    "asset tokenization. Regulatory bodies are also working to establish frameworks to ensure the security and legitimacy of ";
    "cryptocurrency transactions.";
    "";
    "Moreover, the retail industry underwent significant changes due to the increasing reliance on e-commerce. Online sales ";
    "accounted for over 25% of total retail sales in 2023, according to the U.S. Department of Commerce. Retailers such as ";
    "Amazon and Walmart expanded their online marketplaces, while smaller businesses also embraced e-commerce to reach a broader ";
    "audience. Personalized shopping experiences powered by AI and machine learning algorithms have enhanced customer satisfaction ";
    "and loyalty.";
    "";
    "Sustainability emerged as a key focus for businesses across all sectors. Companies are increasingly adopting sustainable ";
    "practices to reduce their carbon footprints and improve their environmental impact. According to a survey by Deloitte, 75% ";
    "of consumers are willing to pay more for products from companies that demonstrate a commitment to sustainability. As a ";
    "result, many organizations have set ambitious sustainability goals, including carbon neutrality by 2030 and zero waste to landfill.";
    "";
    "In education, technology played a pivotal role in enhancing the learning experience. Online learning platforms gained popularity, ";
    "providing access to quality education for students worldwide. The COVID-19 pandemic accelerated the adoption of remote learning, ";
    "leading to innovations in digital classrooms and interactive learning materials. Educators have also begun to integrate gamification ";
    "and adaptive learning technologies to engage students and personalize their educational journeys.";
    "";
    "The entertainment industry has also seen a shift due to the rise of streaming services. Platforms like Netflix, Hulu, and Disney+ ";
    "have gained millions of subscribers, leading to a decline in traditional cable television viewership. Original content production ";
    "has skyrocketed, with streaming services investing heavily in creating exclusive shows and movies to attract and retain subscribers. ";
    "This shift has also changed how audiences consume media, with binge-watching becoming a common behavior.";
    "";
    "As we move forward into 2024, the convergence of these technological advancements will continue to shape various industries. ";
    "Businesses that embrace innovation and prioritize sustainability will likely thrive in this rapidly changing landscape. The ";
    "integration of technology in everyday life is expected to deepen, influencing how we work, learn, and interact with one another. ";
    "Stakeholders across sectors must adapt to these changes and recognize the opportunities presented by emerging technologies.";
    "" ].

Definition newline : string := String "010"%char EmptyString.

Definition text : string := String.concat newline text_lines.

(** Step 0: the splitter's configuration and the split. *)
Definition encoding_name : string := "cl100k_base".

Definition chunk_size : nat := 512.

Definition texts {B : Backend} : list string :=
  split_text encoding_name chunk_size text.

(** Step 1: one [Document] per segment. *)
Definition documents {B : Backend} : list Document :=
  map Document_of_content texts.

Definition model : string := "sentence-transformers/multi-qa-mpnet-base-dot-v1".

Definition document_store : DocumentStore := InMemoryDocumentStore.

(** Step 2: the indexing pipeline. *)
Definition indexing_pipeline : Res Pipeline :=
  p <- Ok Pipeline_new ;;
  p <- add_component (SentenceTransformersDocumentEmbedder model) "embedder" p ;;
  p <- add_component DocumentWriter "writer" p ;;
  connect "embedder.documents" "writer.documents" p.

Definition indexing_input {B : Backend} : run_data :=
  Flat [("documents", VDocuments documents)].

(** Step 3: the question answering pipeline.  [reader.warm_up()] loads
    the pretrained model and changes no value modelled here. *)
Definition retriever : component := InMemoryEmbeddingRetriever.

Definition reader : component :=
  ExtractiveReader (Some "deepset/bert-base-uncased-squad2").

Definition extractive_qa_pipeline : Res Pipeline :=
  p <- Ok Pipeline_new ;;
  p <- add_component (SentenceTransformersTextEmbedder model) "embedder" p ;;
  p <- add_component retriever "retriever" p ;;
  p <- add_component reader "reader" p ;;
  p <- connect "embedder.embedding" "retriever.query_embedding" p ;;
  connect "retriever.documents" "reader.documents" p.

(** Step 4: the query and the argument of the run. *)
Definition query : string :=
  "What is the projected global spending on AI systems in 2023?".

Definition qa_input : run_data :=
  Nested [ ("embedder", [("text", VText query)]);
           ("retriever", [("top_k", VInt 3)]);
           ("reader", [("query", VText query); ("top_k", VInt 1)]) ].

(** Step 5: [result["reader"]["answers"][0].data] *)
Definition response (result : dict (dict value)) : Res string :=
  r <- getitem "reader" result ;;
  v <- getitem "answers" r ;;
  answers <- as_answers v ;;
  a <- index answers 0 ;;
  Ok (data a).

(** The script from top to bottom; its value is [response], which the
    last line prints after ["Response: "]. *)
Definition main {B : Backend} : Res string :=
  ip <- indexing_pipeline ;;
  indexed <- run ip indexing_input document_store ;;
  qp <- extractive_qa_pipeline ;;
  answered <- run qp qa_input (snd indexed) ;;
  response (fst answered).

End Chunking.

(** ** Vocabulary of the statements *)

(** [a] occurs verbatim in [s]. *)
Definition Substring (a s : string) : Prop :=
  exists pre post : string, s = (pre ++ a ++ post)%string.

(** Keys never increase along the list. *)
Definition descending {A : Type} (key : A -> Q) (l : list A) : Prop :=
  StronglySorted (fun a b => key b <= key a)%Q l.

(** The similarity of a record's stored vector to the query vector. *)
Definition similarity_to {B : Backend} (query_embedding : list Q) (d : Document) : Q :=
  match embedding d with
  | Some v => similarity query_embedding v
  | None => 0
  end.

(** The [top_k] a nested run argument gives the component [name]. *)
Definition top_k_of (name : string) (data : run_data) : option value :=
  match data with
  | Nested d =>
      match dict_get name d with
      | Some args => dict_get "top_k" args
      | None => None
      end
  | Flat _ => None
  end.

(** The argument both scripts pass to the query pipeline, as a function
    of the query and the two [top_k]. *)
Definition qa_data (query : string) (retriever_top_k reader_top_k : nat) : run_data :=
  Nested [ ("embedder", [("text", VText query)]);
           ("retriever", [("top_k", VInt retriever_top_k)]);
           ("reader", [("query", VText query); ("top_k", VInt reader_top_k)]) ].

(** The three steps the query pipeline is expected to take on [store]:
    embed the query, retrieve with the query vector, read the retrieved
    documents. *)
Definition qa_steps {B : Backend} (model : string) (query : string)
  (retriever_top_k reader_top_k : nat) (store : DocumentStore)
  : list (string * dict value) :=
  let q := encode model query in
  [ ("embedder", [("text", VText query)]);
    ("retriever", [("top_k", VInt retriever_top_k); ("query_embedding", VEmbedding q)]);
    ("reader", [("query", VText query); ("top_k", VInt reader_top_k);
                ("documents", VDocuments (embedding_retrieval store q retriever_top_k))]) ].

(** The answers expected of the query pipeline on [store]. *)
Definition qa_answers {B : Backend} (model : string) (reader_model : option string)
  (query : string) (retriever_top_k reader_top_k : nat) (store : DocumentStore)
  : list ExtractedAnswer :=
  extract_answers reader_model query
    (embedding_retrieval store (encode model query) retriever_top_k) reader_top_k.

(** What the final line of either script makes of a list of answers. *)
Definition first_answer (answers : list ExtractedAnswer) : Res string :=
  match answers with
  | [] => Raise IndexError
  | a :: _ => Ok (data a)
  end.

(** *** The two scripts side by side *)

(** A pipeline with the model of every reader replaced by [m]. *)
Definition with_reader_model (m : option string) (p : Pipeline) : Pipeline :=
  {| components :=
       map (fun nc =>
              match snd nc with
              | ExtractiveReader _ => (fst nc, ExtractiveReader m)
              | _ => nc
              end)
           (components p);
     connections := connections p |}.

Definition map_res {X Y : Type} (f : X -> Y) (r : Res X) : Res Y :=
  match r with
  | Ok x => Ok (f x)
  | Raise e => Raise e
  end.

(** What the scripts have in common: a script that indexes [texts] and
    answers [query] with the reader [reader_model]. *)
Module Template.

Definition model : string := "sentence-transformers/multi-qa-mpnet-base-dot-v1".

Definition indexing_pipeline : Res Pipeline :=
  p <- Ok Pipeline_new ;;
  p <- add_component (SentenceTransformersDocumentEmbedder model) "embedder" p ;;
  p <- add_component DocumentWriter "writer" p ;;
  connect "embedder.documents" "writer.documents" p.

Definition extractive_qa_pipeline (reader_model : option string) : Res Pipeline :=
  p <- Ok Pipeline_new ;;
  p <- add_component (SentenceTransformersTextEmbedder model) "embedder" p ;;
  p <- add_component InMemoryEmbeddingRetriever "retriever" p ;;
  p <- add_component (ExtractiveReader reader_model) "reader" p ;;
  p <- connect "embedder.embedding" "retriever.query_embedding" p ;;
  connect "retriever.documents" "reader.documents" p.

(** The graphs the two constructions are expected to build. *)
Definition indexing_graph : Pipeline :=
  {| components := [ ("embedder", SentenceTransformersDocumentEmbedder model);
                     ("writer", DocumentWriter) ];
     connections := [ (("embedder", "documents"), ("writer", "documents")) ] |}.

Definition qa_graph (reader_model : option string) : Pipeline :=
  {| components := [ ("embedder", SentenceTransformersTextEmbedder model);
                     ("retriever", InMemoryEmbeddingRetriever);
                     ("reader", ExtractiveReader reader_model) ];
     connections := [ (("embedder", "embedding"), ("retriever", "query_embedding"));
                      (("retriever", "documents"), ("reader", "documents")) ] |}.

Definition main {B : Backend} (texts : list string) (reader_model : option string)
  (query : string) : Res string :=
  ip <- indexing_pipeline ;;
  indexed <- run ip (Flat [("documents", VDocuments (map Document_of_content texts))])
               InMemoryDocumentStore ;;
  qp <- extractive_qa_pipeline reader_model ;;
  answered <- run qp (qa_data query 3 1) (snd indexed) ;;
  r <- getitem "reader" (fst answered) ;;
  v <- getitem "answers" r ;;
  answers <- as_answers v ;;
  a <- index answers 0 ;;
  Ok (data a).

End Template.

(** The claim that the scripts differ in nothing but the chunking step
    and the reader's model name: same input data, same embedding model,
    same pipelines up to the reader's model, same query, same run
    parameters. *)
Definition same_apart_from_chunking_and_reader : Prop :=
  values Basic.sample_texts = [Chunking.text]
  /\ Basic.model = Chunking.model
  /\ Basic.indexing_pipeline = Chunking.indexing_pipeline
  /\ Basic.extractive_qa_pipeline
     = map_res (with_reader_model None) Chunking.extractive_qa_pipeline
  /\ Basic.query = Chunking.query
  /\ Basic.qa_input = Chunking.qa_input.

(** *** Stand-ins for the pretrained models

    Small computable backends on which the statements are run. *)

Definition dot (u v : list Q) : Q :=
  fold_right Qplus 0%Q (map (fun p => fst p * snd p)%Q (combine u v)).

(** Vectors of dimension two, the dot product, one proposed span per
    passage, and a splitter that keeps the text whole. *)
Definition toy_backend : Backend :=
  {| encode := fun _ t => [inject_Z (Z.of_nat (String.length t)); 1%Q];
     similarity := dot;
     propose_spans := fun _ _ _ => [(3, 7, (1 # 2)%Q)];
     split_text := fun _ _ t => [t];
     default_retriever_top_k := 10;
     default_reader_top_k := 20 |}.

(** The same with a reading model that proposes no span. *)
Definition mute_backend : Backend :=
  {| encode := fun _ t => [inject_Z (Z.of_nat (String.length t)); 1%Q];
     similarity := dot;
     propose_spans := fun _ _ _ => [];
     split_text := fun _ _ t => [t];
     default_retriever_top_k := 10;
     default_reader_top_k := 20 |}.

(** ** Vocabulary of the statements on whole scripts *)

(** [a] occurs in [s], decided: [a] is a prefix of [s] or occurs in its
    tail. *)
Fixpoint occurs (a s : string) : bool :=
  prefix a s
  || match s with
     | EmptyString => false
     | String _ s' => occurs a s'
     end.

(** The documents the reader is run on when a script's two pipelines are
    run one after the other: the indexing pipeline on one document per
    text and an empty store, then the query pipeline on the store the
    indexing left. *)
Definition reader_documents {B : Backend} (indexing qa : Res Pipeline)
  (texts : list string) (input : run_data) : Res (list Document) :=
  ip <- indexing ;;
  indexed <- run_traced ip
               (Flat [("documents", VDocuments (map Document_of_content texts))])
               InMemoryDocumentStore ;;
  qp <- qa ;;
  answered <- run_traced qp input (store_after indexed) ;;
  args <- getitem "reader" (steps answered) ;;
  v <- getitem "documents" args ;;
  as_documents v.

(** The text of the fifth snippet of the basic script. *)
Definition text5 : string :=
  match dict_get "text5" Basic.sample_texts with
  | Some t => t
  | None => EmptyString
  end.

(** A stand-in whose reading model proposes the first occurrence of
    [phrase] in a passage, when there is one. *)
Definition phrase_backend (phrase : string) : Backend :=
  {| encode := fun _ t => [inject_Z (Z.of_nat (String.length t)); 1%Q];
     similarity := dot;
     propose_spans :=
       fun _ _ passage =>
         match String.index 0 phrase passage with
         | Some i => [(i, i + String.length phrase, 1%Q)]
         | None => []
         end;
     split_text := fun _ _ t => [t];
     default_retriever_top_k := 10;
     default_reader_top_k := 20 |}.

(** A stand-in whose splitter returns no segment. *)
Definition empty_split_backend : Backend :=
  {| encode := fun _ t => [inject_Z (Z.of_nat (String.length t)); 1%Q];
     similarity := dot;
     propose_spans := fun _ _ _ => [(3, 7, (1 # 2)%Q)];
     split_text := fun _ _ _ => [];
     default_retriever_top_k := 10;
     default_reader_top_k := 20 |}.

(** ** Lemmas on slices and sorting *)

Lemma substring_from_start (m : nat) (s : string) :
  exists post : string, s = (substring 0 m s ++ post)%string.
Proof.
  revert m; induction s as [|c s IH]; intros [|m]; simpl.
  - now exists EmptyString.
  - now exists EmptyString.
  - now exists (String c s).
  - destruct (IH m) as [post E]. exists post. now rewrite <- E.
Qed.

Lemma substring_occurs (n m : nat) (s : string) : Substring (substring n m s) s.
Proof.
  revert n; induction s as [|c s IH]; intros n.
  - exists EmptyString, EmptyString. now destruct n, m.
  - destruct n as [|n].
    + destruct (substring_from_start m (String c s)) as [post E].
      now exists EmptyString, post.
    + destruct (IH n) as (pre & post & E).
      exists (String c pre), post. simpl. now rewrite <- E.
Qed.

Lemma slice_occurs (s e : nat) (t : string) : Substring (slice s e t) t.
Proof. apply substring_occurs. Qed.

Lemma length_string_app (a b : string) :
  String.length (a ++ b)%string = String.length a + String.length b.
Proof. induction a as [|c a IH]; simpl; [reflexivity | now rewrite IH]. Qed.

Lemma Substring_length (a s : string) :
  Substring a s -> String.length a <= String.length s.
Proof.
  intros (pre & post & ->). rewrite !length_string_app. lia.
Qed.

Section SortedReverseFacts.
Context {A : Type} (key : A -> Q).

Lemma insert_desc_perm (x : A) (l : list A) :
  Permutation (insert_desc key x l) (x :: l).
Proof.
  induction l as [|y l IH]; simpl.
  - apply Permutation_refl.
  - destruct (Qle_bool (key y) (key x)).
    + apply Permutation_refl.
    + eapply perm_trans; [apply perm_skip, IH | apply perm_swap].
Qed.

Lemma sorted_reverse_perm (l : list A) : Permutation (sorted_reverse key l) l.
Proof.
  induction l as [|x l IH]; simpl.
  - apply perm_nil.
  - eapply perm_trans; [apply insert_desc_perm | now apply perm_skip].
Qed.

Lemma insert_desc_descending (x : A) (l : list A) :
  descending key l -> descending key (insert_desc key x l).
Proof.
  unfold descending.
  induction l as [|y l IH]; intros H; simpl.
  - constructor; constructor.
  - inversion H as [|? ? Hl Hy]; subst.
    destruct (Qle_bool (key y) (key x)) eqn:E.
    + apply Qle_bool_iff in E.
      constructor; [assumption|].
      constructor; [assumption|].
      rewrite Forall_forall in Hy |- *. intros b Hb.
      apply Qle_trans with (key y); auto.
    + assert (Hxy : (key x <= key y)%Q).
      { apply Qlt_le_weak, Qnot_le_lt. intros C.
        apply Qle_bool_iff in C. congruence. }
      constructor; [now apply IH|].
      rewrite Forall_forall in Hy |- *. intros b Hb.
      apply (Permutation_in _ (insert_desc_perm x l)) in Hb.
      destruct Hb as [<-|Hb]; auto.
Qed.

Lemma sorted_reverse_descending (l : list A) : descending key (sorted_reverse key l).
Proof.
  induction l as [|x l IH]; simpl.
  - constructor.
  - now apply insert_desc_descending.
Qed.

Lemma firstn_descending (n : nat) (l : list A) :
  descending key l -> descending key (firstn n l).
Proof.
  unfold descending. revert l; induction n as [|n IH]; intros l H; simpl.
  - constructor.
  - destruct l as [|x l]; [constructor|].
    inversion H as [|? ? Hl Hx]; subst.
    constructor; [now apply IH|].
    rewrite Forall_forall in Hx |- *. intros b Hb.
    apply Hx. eapply (In_nth_error) in Hb. destruct Hb as [i Hi].
    clear - Hi. revert i l Hi. induction n as [|n IHn]; intros i l Hi.
    + destruct i; discriminate.
    + destruct l as [|y l]; [destruct i; discriminate|].
      destruct i as [|i]; simpl in Hi.
      * injection Hi as <-. now left.
      * right. eapply IHn, Hi.
Qed.

Lemma firstn_In (n : nat) (l : list A) (a : A) : In a (firstn n l) -> In a l.
Proof.
  revert l; induction n as [|n IH]; intros [|x l] H; simpl in *; try contradiction.
  destruct H as [->|H]; [now left | right; now apply IH].
Qed.

End SortedReverseFacts.

Lemma filter_map_In {X Y : Type} (f : X -> option Y) (l : list X) (y : Y) :
  In y (filter_map f l) -> exists x, In x l /\ f x = Some y.
Proof.
  induction l as [|x l IH]; simpl; [contradiction|].
  destruct (f x) as [y'|] eqn:E.
  - intros [<-|H].
    + exists x; auto.
    + destruct (IH H) as (x' & Hin & Hf). exists x'; auto.
  - intros H. destruct (IH H) as (x' & Hin & Hf). exists x'; auto.
Qed.

Lemma descending_ext {A : Type} (key key' : A -> Q) (l : list A) :
  (forall a, In a l -> key a = key' a) -> descending key l -> descending key' l.
Proof.
  unfold descending. intros Hext H.
  induction H as [|x l Hl IH Hx]; [constructor|].
  constructor.
  - apply IH. intros a Ha. apply Hext. now right.
  - rewrite Forall_forall in Hx |- *. intros b Hb.
    rewrite <- (Hext x (or_introl eq_refl)), <- (Hext b (or_intror Hb)).
    now apply Hx.
Qed.

(** ** The retriever and the reader *)

Lemma retrieved_is_scored {B : Backend} (store : DocumentStore)
  (q : list Q) (top_k : nat) (d : Document) :
  In d (embedding_retrieval store q top_k) ->
  exists d0, In d0 store /\ scored q d0 = Some d.
Proof.
  unfold embedding_retrieval. intros H.
  apply firstn_In in H.
  apply (Permutation_in _ (sorted_reverse_perm score_of _)) in H.
  now apply filter_map_In in H.
Qed.

Lemma scored_inv {B : Backend} (q : list Q) (d0 d : Document) :
  scored q d0 = Some d ->
  exists v, embedding d0 = Some v /\ content d = content d0
            /\ embedding d = Some v /\ score d = Some (similarity q v).
Proof.
  unfold scored. destruct (embedding d0) as [v|]; [|discriminate].
  intros [= <-]. now exists v.
Qed.

(** C2. For every query vector, every store and every [top_k], the
    retriever returns at most [top_k] documents, the text and vector of
    each returned document are those of a stored document, and the
    returned documents come in decreasing similarity of their stored
    vector to the query vector; both scripts ask the retriever for
    [top_k = 3]. *)
Theorem retriever_returns_top_k_by_similarity {B : Backend}
  (store : DocumentStore) (query_embedding : list Q) (top_k : nat) :
  length (embedding_retrieval store query_embedding top_k) <= top_k
  /\ (forall d, In d (embedding_retrieval store query_embedding top_k) ->
        exists d0, In d0 store /\ content d0 = content d
                   /\ embedding d0 = embedding d)
  /\ descending (similarity_to query_embedding)
       (embedding_retrieval store query_embedding top_k)
  /\ top_k_of "retriever" Basic.qa_input = Some (VInt 3)
  /\ top_k_of "retriever" Chunking.qa_input = Some (VInt 3).
Proof.
  split; [apply firstn_le_length|].
  split.
  { intros d H. apply retrieved_is_scored in H as (d0 & Hin & Hs).
    apply scored_inv in Hs as (v & E0 & Ec & Ee & _).
    exists d0. repeat split; congruence. }
  split; [|split; reflexivity].
  apply descending_ext with (key := score_of).
  - intros d H. apply retrieved_is_scored in H as (d0 & _ & Hs).
    apply scored_inv in Hs as (v & _ & _ & Ee & Es).
    unfold score_of, similarity_to. now rewrite Ee, Es.
  - apply firstn_descending, sorted_reverse_descending.
Qed.

Lemma answers_in_inv {B : Backend} (model : option string) (query : string)
  (d : Document) (a : ExtractedAnswer) :
  In a (answers_in model query d) ->
  document a = d /\ data a = slice (span_start a) (span_end a) (content d).
Proof.
  unfold answers_in. intros H. apply in_map_iff in H as ([[s e] p] & <- & _).
  now split.
Qed.

(** C1. For every query, every list of candidate passages and every
    [top_k], the reader returns at most [top_k] answers, each answer is
    cut out of one of the passages it was given (its text occurs there
    verbatim and is no longer than that passage), and the answers come
    in decreasing confidence; both scripts ask the reader for
    [top_k = 1]. *)
Theorem reader_returns_ranked_spans {B : Backend} (model : option string)
  (query : string) (documents : list Document) (top_k : nat) :
  length (extract_answers model query documents top_k) <= top_k
  /\ (forall a, In a (extract_answers model query documents top_k) ->
        In (document a) documents
        /\ Substring (data a) (content (document a))
        /\ String.length (data a) <= String.length (content (document a)))
  /\ descending answer_score (extract_answers model query documents top_k)
  /\ top_k_of "reader" Basic.qa_input = Some (VInt 1)
  /\ top_k_of "reader" Chunking.qa_input = Some (VInt 1).
Proof.
  split; [apply firstn_le_length|].
  split.
  { intros a H. unfold extract_answers in H.
    apply firstn_In in H.
    apply (Permutation_in _ (sorted_reverse_perm answer_score _)) in H.
    apply in_flat_map in H as (d & Hd & Ha).
    apply answers_in_inv in Ha as (-> & ->).
    split; [assumption|].
    split; [apply slice_occurs | apply Substring_length, slice_occurs]. }
  split; [|split; reflexivity].
  apply firstn_descending, sorted_reverse_descending.
Qed.

(** ** The pipelines the scripts build, and their runs *)

Lemma indexing_pipeline_built : Template.indexing_pipeline = Ok Template.indexing_graph.
Proof. reflexivity. Qed.

Lemma qa_pipeline_built (reader_model : option string) :
  Template.extractive_qa_pipeline reader_model = Ok (Template.qa_graph reader_model).
Proof. reflexivity. Qed.

Lemma basic_pipelines_built :
  Basic.indexing_pipeline = Ok Template.indexing_graph
  /\ Basic.extractive_qa_pipeline = Ok (Template.qa_graph None).
Proof. split; reflexivity. Qed.

Lemma chunking_pipelines_built :
  Chunking.indexing_pipeline = Ok Template.indexing_graph
  /\ Chunking.extractive_qa_pipeline
     = Ok (Template.qa_graph (Some "deepset/bert-base-uncased-squad2")).
Proof. split; reflexivity. Qed.

(** The indexing run on any documents and any store: the embedder runs
    on the documents given, the writer on the embedder's output, and the
    store grows by the embedded documents. *)
Lemma indexing_graph_run {B : Backend} (docs : list Document) (store : DocumentStore) :
  run_traced Template.indexing_graph (Flat [("documents", VDocuments docs)]) store
  = Ok {| result := [("writer", [("documents_written", VInt (length docs))])];
          steps := [ ("embedder", [("documents", VDocuments docs)]);
                     ("writer",
                      [("documents",
                        VDocuments (map (embed_document Template.model) docs))]) ];
          store_after := store ++ map (embed_document Template.model) docs |}.
Proof.
  rewrite <- (length_map (embed_document Template.model) docs). reflexivity.
Qed.

Lemma Permutation_three {A : Type} (a b c : A) (l : list A) :
  Permutation l [a; b; c] ->
  l = [a; b; c] \/ l = [a; c; b] \/ l = [b; a; c]
  \/ l = [b; c; a] \/ l = [c; a; b] \/ l = [c; b; a].
Proof.
  intros H.
  destruct (Permutation_vs_cons_inv H) as (l1 & l2 & ->).
  apply Permutation_sym, Permutation_cons_app_inv in H.
  apply Permutation_length_2_inv in H.
  destruct l1 as [|x [|y [|z l1]]]; simpl in *;
    destruct H as [H|H]; inversion H; subst; auto 7.
Qed.

(** The query run on any store, whatever the order in which the three
    components were added: the steps are those of [qa_steps], the
    result holds the reader's answers only, the store is left as it
    was. *)
Lemma qa_graph_run {B : Backend} (reader_model : option string) (query : string)
  (retriever_top_k reader_top_k : nat) (store : DocumentStore)
  (cs : dict component) :
  Permutation cs (components (Template.qa_graph reader_model)) ->
  run_traced {| components := cs;
                connections := connections (Template.qa_graph reader_model) |}
    (qa_data query retriever_top_k reader_top_k) store
  = Ok {| result :=
            [("reader",
              [("answers",
                VAnswers (qa_answers Template.model reader_model query
                            retriever_top_k reader_top_k store))])];
          steps := qa_steps Template.model query retriever_top_k reader_top_k store;
          store_after := store |}.
Proof.
  intros H. apply Permutation_three in H.
  destruct H as [-> | [-> | [-> | [-> | [-> | ->]]]]]; reflexivity.
Qed.

Lemma qa_graph_run_result {B : Backend} (reader_model : option string) (query : string)
  (retriever_top_k reader_top_k : nat) (store : DocumentStore) :
  run (Template.qa_graph reader_model)
    (qa_data query retriever_top_k reader_top_k) store
  = Ok ([("reader",
          [("answers",
            VAnswers (qa_answers Template.model reader_model query
                        retriever_top_k reader_top_k store))])],
        store).
Proof.
  unfold run.
  change (Template.qa_graph reader_model)
    with {| components := components (Template.qa_graph reader_model);
            connections := connections (Template.qa_graph reader_model) |}.
  rewrite qa_graph_run by apply Permutation_refl. reflexivity.
Qed.

(** ** The query pipeline *)

(** C5. In each script the query pipeline, run on any store, takes
    exactly three steps in this order: the embedder on the query text,
    the retriever on the query vector the embedder produced (with
    [top_k = 3]), the reader on the query and on exactly the documents
    the retriever returned (with [top_k = 1]); the result holds the
    reader's answers.  The order follows from the two connections: it
    is the same whatever the order in which the components were
    added. *)
Theorem qa_pipeline_embeds_retrieves_reads {B : Backend} (store : DocumentStore) :
  (exists qp,
     Basic.extractive_qa_pipeline = Ok qp
     /\ connections qp
        = [ (("embedder", "embedding"), ("retriever", "query_embedding"));
            (("retriever", "documents"), ("reader", "documents")) ]
     /\ forall cs, Permutation cs (components qp) ->
          run_traced {| components := cs; connections := connections qp |}
            Basic.qa_input store
          = Ok {| result :=
                    [("reader",
                      [("answers",
                        VAnswers (qa_answers Basic.model None Basic.query 3 1 store))])];
                  steps := qa_steps Basic.model Basic.query 3 1 store;
                  store_after := store |})
  /\ (exists qp,
        Chunking.extractive_qa_pipeline = Ok qp
        /\ connections qp
           = [ (("embedder", "embedding"), ("retriever", "query_embedding"));
               (("retriever", "documents"), ("reader", "documents")) ]
        /\ forall cs, Permutation cs (components qp) ->
             run_traced {| components := cs; connections := connections qp |}
               Chunking.qa_input store
             = Ok {| result :=
                       [("reader",
                         [("answers",
                           VAnswers
                             (qa_answers Chunking.model
                                (Some "deepset/bert-base-uncased-squad2")
                                Chunking.query 3 1 store))])];
                     steps := qa_steps Chunking.model Chunking.query 3 1 store;
                     store_after := store |}).
Proof.
  split.
  - exists (Template.qa_graph None). split; [reflexivity|]. split; [reflexivity|].
    intros cs H. exact (qa_graph_run None Basic.query 3 1 store cs H).
  - exists (Template.qa_graph (Some "deepset/bert-base-uncased-squad2")).
    split; [reflexivity|]. split; [reflexivity|].
    intros cs H.
    exact (qa_graph_run (Some "deepset/bert-base-uncased-squad2")
             Chunking.query 3 1 store cs H).
Qed.

(** The steps of the basic script's query pipeline when the reader is
    added first and the embedder last. *)
Example qa_pipeline_reversed_components :
  @run_traced toy_backend
    {| components := rev (components (Template.qa_graph None));
       connections := connections (Template.qa_graph None) |}
    Basic.qa_input []
  = Ok {| result := [("reader", [("answers", VAnswers [])])];
          steps := @qa_steps toy_backend Basic.model Basic.query 3 1 [];
          store_after := [] |}.
Proof. reflexivity. Qed.

(** ** The indexing pipeline *)

Lemma indexing_graph_run_result {B : Backend} (docs : list Document)
  (store : DocumentStore) :
  run Template.indexing_graph (Flat [("documents", VDocuments docs)]) store
  = Ok ([("writer", [("documents_written", VInt (length docs))])],
        store ++ map (embed_document Template.model) docs).
Proof. unfold run. rewrite indexing_graph_run. reflexivity. Qed.

Lemma embedded_content {B : Backend} (model : string) (texts : list string) :
  map content (map (embed_document model) (map Document_of_content texts)) = texts.
Proof.
  induction texts as [|t texts IH]; simpl; [reflexivity | now rewrite IH].
Qed.

Lemma sample_texts_distinct :
  NoDup (keys Basic.sample_texts) /\ NoDup (values Basic.sample_texts).
Proof.
  split; repeat constructor; simpl; intuition discriminate.
Qed.

(** C7. The basic script builds one [Document] per value of
    [sample_texts], five in all, in the dictionary's order, none with a
    vector yet; the five texts are distinct; the store starts empty;
    and the indexing run reports five documents written and leaves in
    the store exactly these five documents, in that order, each with
    its vector. *)
Theorem basic_script_indexes_five_documents {B : Backend} :
  length Basic.documents = 5
  /\ map content Basic.documents = values Basic.sample_texts
  /\ NoDup (values Basic.sample_texts)
  /\ Forall (fun d => embedding d = None /\ score d = None) Basic.documents
  /\ Basic.document_store = []
  /\ exists ip,
       Basic.indexing_pipeline = Ok ip
       /\ run ip Basic.indexing_input Basic.document_store
          = Ok ([("writer", [("documents_written", VInt 5)])],
                map (embed_document Basic.model) Basic.documents)
       /\ map content (map (embed_document Basic.model) Basic.documents)
          = values Basic.sample_texts.
Proof.
  split; [reflexivity|]. split; [reflexivity|].
  split; [apply sample_texts_distinct|].
  split; [repeat constructor|]. split; [reflexivity|].
  exists Template.indexing_graph. split; [reflexivity|].
  split; [|reflexivity].
  unfold Basic.indexing_input. rewrite indexing_graph_run_result. reflexivity.
Qed.

(** C9. In each script the indexing run, on any texts and any store,
    keeps the documents already stored and appends one document per
    text, in order, whose content is that text: the embedder attaches
    the vector of the content and changes nothing else. *)
Theorem indexing_keeps_document_content {B : Backend} (texts : list string)
  (store : DocumentStore) :
  (forall (model : string) (d : Document),
     content (embed_document model d) = content d
     /\ score (embed_document model d) = score d
     /\ embedding (embed_document model d) = Some (encode model (content d)))
  /\ (exists ip written,
        Basic.indexing_pipeline = Ok ip
        /\ run ip (Flat [("documents", VDocuments (map Document_of_content texts))]) store
           = Ok ([("writer", [("documents_written", VInt (length texts))])],
                 store ++ written)
        /\ map content written = texts
        /\ written
           = map (fun t => {| content := t;
                              embedding := Some (encode Basic.model t);
                              score := None |}) texts)
  /\ (exists ip written,
        Chunking.indexing_pipeline = Ok ip
        /\ run ip (Flat [("documents", VDocuments (map Document_of_content texts))]) store
           = Ok ([("writer", [("documents_written", VInt (length texts))])],
                 store ++ written)
        /\ map content written = texts
        /\ written
           = map (fun t => {| content := t;
                              embedding := Some (encode Chunking.model t);
                              score := None |}) texts).
Proof.
  split; [intros model d; repeat split|].
  split.
  - exists Template.indexing_graph,
      (map (embed_document Template.model) (map Document_of_content texts)).
    split; [reflexivity|]. split.
    + rewrite indexing_graph_run_result, length_map. reflexivity.
    + split; [apply embedded_content | apply map_map].
  - exists Template.indexing_graph,
      (map (embed_document Template.model) (map Document_of_content texts)).
    split; [reflexivity|]. split.
    + rewrite indexing_graph_run_result, length_map. reflexivity.
    + split; [apply embedded_content | apply map_map].
Qed.

(** ** The final line of the scripts *)

Lemma basic_main_eq {B : Backend} :
  Basic.main
  = first_answer
      (qa_answers Basic.model None Basic.query 3 1
         (map (embed_document Basic.model) Basic.documents)).
Proof.
  unfold Basic.main.
  destruct basic_pipelines_built as [-> ->]. cbn [bind].
  unfold Basic.indexing_input. rewrite indexing_graph_run_result. cbn [bind snd].
  change Basic.qa_input with (qa_data Basic.query 3 1).
  rewrite qa_graph_run_result. cbn [bind fst].
  unfold Basic.response.
  destruct (qa_answers _ _ _ _ _ _); reflexivity.
Qed.

Lemma chunking_main_eq {B : Backend} :
  Chunking.main
  = first_answer
      (qa_answers Chunking.model (Some "deepset/bert-base-uncased-squad2")
         Chunking.query 3 1
         (map (embed_document Chunking.model) Chunking.documents)).
Proof.
  unfold Chunking.main.
  destruct chunking_pipelines_built as [-> ->]. cbn [bind].
  unfold Chunking.indexing_input. rewrite indexing_graph_run_result. cbn [bind snd].
  change Chunking.qa_input with (qa_data Chunking.query 3 1).
  rewrite qa_graph_run_result. cbn [bind fst].
  unfold Chunking.response.
  destruct (qa_answers _ _ _ _ _ _); reflexivity.
Qed.

(** C8. In both scripts the final line takes [answers[0]] with no
    guard: on a result whose reader answers are [answers] it yields the
    data of the first answer when there is one and raises [IndexError]
    when the list is empty, and it raises [IndexError] only then; each
    script as a whole ends the same way on the answers its reader
    returned. *)
Theorem response_needs_a_first_answer {B : Backend}
  (answers : list ExtractedAnswer) :
  Basic.response [("reader", [("answers", VAnswers answers)])] = first_answer answers
  /\ Chunking.response [("reader", [("answers", VAnswers answers)])]
     = first_answer answers
  /\ first_answer [] = Raise IndexError
  /\ (first_answer answers = Raise IndexError <-> answers = [])
  /\ (forall a rest, first_answer (a :: rest) = Ok (data a))
  /\ Basic.main
     = first_answer
         (qa_answers Basic.model None Basic.query 3 1
            (map (embed_document Basic.model) Basic.documents))
  /\ Chunking.main
     = first_answer
         (qa_answers Chunking.model (Some "deepset/bert-base-uncased-squad2")
            Chunking.query 3 1
            (map (embed_document Chunking.model) Chunking.documents)).
Proof.
  split; [destruct answers; reflexivity|].
  split; [destruct answers; reflexivity|].
  split; [reflexivity|].
  split.
  { destruct answers; simpl; split; intros H; try reflexivity; discriminate. }
  split; [reflexivity|].
  split; [apply basic_main_eq | apply chunking_main_eq].
Qed.

(** With a reading model that proposes no span, both scripts end in
    [IndexError]; with one that proposes a span, both print it. *)
Example scripts_on_stand_in_models :
  @Basic.main mute_backend = Raise IndexError
  /\ @Chunking.main mute_backend = Raise IndexError
  /\ @Basic.main toy_backend = Ok "of 2"
  /\ @Chunking.main toy_backend = Ok " 202".
Proof. repeat split; vm_compute; reflexivity. Qed.

(** ** The two scripts compared *)

Lemma queries_differ : Basic.query <> Chunking.query.
Proof. apply String.eqb_neq. reflexivity. Qed.

Lemma inputs_differ : values Basic.sample_texts <> [Chunking.text].
Proof. intros H. apply (f_equal (@length string)) in H. discriminate H. Qed.

(** C6, as stated, fails: the two scripts do not ask the same query,
    and they do not start from the same input data (five snippets in
    one, a single long text in the other). *)
Lemma scripts_differ_in_query_and_input :
  Basic.query <> Chunking.query
  /\ values Basic.sample_texts <> [Chunking.text]
  /\ Basic.qa_input <> Chunking.qa_input
  /\ ~ same_apart_from_chunking_and_reader.
Proof.
  split; [apply queries_differ|].
  split; [apply inputs_differ|].
  split.
  - unfold Basic.qa_input, Chunking.qa_input, Basic.query, Chunking.query.
    discriminate.
  - intros (H & _). now apply inputs_differ.
Qed.

(** C6, amended. The scripts share the embedding model, the indexing
    pipeline, the query pipeline up to the reader's model name, the
    shape of the run argument with [top_k] 3 and 1, and the final
    extraction; they differ in the reader's model name, in the query
    string, and in the input data, which only the second script chunks
    before indexing.  Each script is the common template run on its own
    texts, reader model and query. *)
Theorem scripts_share_pipelines_and_parameters {B : Backend} :
  Basic.model = Chunking.model
  /\ Basic.indexing_pipeline = Chunking.indexing_pipeline
  /\ Basic.extractive_qa_pipeline
     = map_res (with_reader_model None) Chunking.extractive_qa_pipeline
  /\ Basic.retriever = Chunking.retriever
  /\ Basic.reader = ExtractiveReader None
  /\ Chunking.reader = ExtractiveReader (Some "deepset/bert-base-uncased-squad2")
  /\ Basic.qa_input = qa_data Basic.query 3 1
  /\ Chunking.qa_input = qa_data Chunking.query 3 1
  /\ (forall result, Basic.response result = Chunking.response result)
  /\ Basic.documents = map Document_of_content (values Basic.sample_texts)
  /\ Chunking.documents
     = map Document_of_content (split_text "cl100k_base" 512 Chunking.text)
  /\ Basic.main = Template.main (values Basic.sample_texts) None Basic.query
  /\ Chunking.main
     = Template.main (split_text "cl100k_base" 512 Chunking.text)
         (Some "deepset/bert-base-uncased-squad2") Chunking.query
  /\ Basic.query <> Chunking.query
  /\ values Basic.sample_texts <> [Chunking.text].
Proof.
  repeat (split; [reflexivity|]).
  split; [apply queries_differ | apply inputs_differ].
Qed.

(** ** The statements on the stand-in models *)

(** The retriever and the reader on [toy_backend] and a store of three
    texts: the two longest texts come back, longest first, and the
    reader's single answer is cut out of the longest. *)
Example retrieval_on_toy_backend :
  map content
    (@embedding_retrieval toy_backend
       (map (@embed_document toy_backend "m")
          (map Document_of_content ["bb"; "dddd"; "a"]))
       (@encode toy_backend "m" "query") 2)
  = ["dddd"; "bb"]
  /\ map data
       (@extract_answers toy_backend None "query"
          (map Document_of_content ["abcdefghij"; "0123456789"]) 1)
     = ["defg"].
Proof. split; vm_compute; reflexivity. Qed.

(** ** The hard-coded data *)

(** The literals have the lengths of the Python strings. *)
Example literal_lengths :
  String.length Chunking.text = 4635
  /\ map String.length (values Basic.sample_texts) = [168; 204; 149; 176; 183]
  /\ String.length Basic.query = 50
  /\ String.length Chunking.query = 60.
Proof. repeat split; vm_compute; reflexivity. Qed.

(** ** Whole scripts: where the response comes from *)

Lemma template_main_eq {B : Backend} (texts : list string)
  (reader_model : option string) (query : string) :
  Template.main texts reader_model query
  = first_answer
      (qa_answers Template.model reader_model query 3 1
         (map (embed_document Template.model) (map Document_of_content texts))).
Proof.
  unfold Template.main.
  rewrite indexing_pipeline_built, qa_pipeline_built. cbn [bind].
  rewrite indexing_graph_run_result. cbn [bind snd].
  rewrite qa_graph_run_result. cbn [bind fst].
  destruct (qa_answers _ _ _ _ _ _); reflexivity.
Qed.

Lemma reader_documents_eq {B : Backend} (texts : list string)
  (reader_model : option string) (query : string)
  (retriever_top_k reader_top_k : nat) :
  reader_documents (Ok Template.indexing_graph) (Ok (Template.qa_graph reader_model))
    texts (qa_data query retriever_top_k reader_top_k)
  = Ok (embedding_retrieval
          (map (embed_document Template.model) (map Document_of_content texts))
          (encode Template.model query) retriever_top_k).
Proof.
  unfold reader_documents. cbn [bind].
  rewrite indexing_graph_run. cbn [bind store_after].
  change (Template.qa_graph reader_model)
    with {| components := components (Template.qa_graph reader_model);
            connections := connections (Template.qa_graph reader_model) |}.
  rewrite qa_graph_run by apply Permutation_refl. reflexivity.
Qed.

Lemma extracted_answer_origin {B : Backend} (model : option string)
  (query : string) (docs : list Document) (top_k : nat) (a : ExtractedAnswer) :
  In a (extract_answers model query docs top_k) ->
  In (document a) docs
  /\ In a (answers_in model query (document a))
  /\ Substring (data a) (content (document a)).
Proof.
  unfold extract_answers. intros H.
  apply firstn_In in H.
  apply (Permutation_in _ (sorted_reverse_perm answer_score _)) in H.
  apply in_flat_map in H as (d & Hd & Ha).
  destruct (answers_in_inv _ _ _ _ Ha) as (E & Edata).
  rewrite E. repeat split; try assumption.
  rewrite Edata. apply slice_occurs.
Qed.

Lemma retrieved_from_indexed {B : Backend} (model : string) (texts : list string)
  (q : list Q) (top_k : nat) (d : Document) :
  In d (embedding_retrieval
          (map (embed_document model) (map Document_of_content texts)) q top_k) ->
  In (content d) texts /\ embedding d = Some (encode model (content d)).
Proof.
  intros H. apply retrieved_is_scored in H as (d0 & Hin & Hs).
  apply scored_inv in Hs as (v & E0 & Ec & Ee & _).
  apply in_map_iff in Hin as (d1 & <- & Hin).
  apply in_map_iff in Hin as (t & <- & Hin).
  simpl in *. injection E0 as <-. rewrite Ec. now split.
Qed.

Lemma indexed_all_scored {B : Backend} (model : string) (q : list Q)
  (docs : list Document) :
  length (filter_map (scored q) (map (embed_document model) docs)) = length docs.
Proof.
  induction docs as [|d docs IH]; simpl; [reflexivity | now rewrite IH].
Qed.

Lemma retrieved_count {B : Backend} (model : string) (texts : list string)
  (q : list Q) (top_k : nat) :
  length (embedding_retrieval
            (map (embed_document model) (map Document_of_content texts)) q top_k)
  = Nat.min top_k (length texts).
Proof.
  unfold embedding_retrieval. rewrite length_firstn.
  rewrite (Permutation_length (sorted_reverse_perm score_of _)).
  now rewrite indexed_all_scored, length_map.
Qed.

Lemma prefix_app (a post : string) : prefix a (a ++ post)%string = true.
Proof.
  induction a as [|c a IH]; simpl; [now destruct post|].
  destruct (ascii_dec c c); [assumption | contradiction].
Qed.

Lemma occurs_prefix (a s : string) : prefix a s = true -> occurs a s = true.
Proof. destruct s; simpl; intros ->; reflexivity. Qed.

Lemma occurs_complete (a s : string) : Substring a s -> occurs a s = true.
Proof.
  intros (pre & post & ->).
  induction pre as [|c pre IH].
  - apply occurs_prefix. exact (prefix_app a post).
  - simpl. rewrite IH. apply orb_true_r.
Qed.

Lemma Substring_trans (a b c : string) :
  Substring a b -> Substring b c -> Substring a c.
Proof.
  intros (p1 & q1 & ->) (p2 & q2 & ->).
  exists (p2 ++ p1)%string, (q1 ++ q2)%string.
  induction p2 as [|x p2 IH]; simpl.
  - clear. induction p1 as [|x p1 IH]; simpl.
    + induction a as [|x a IH]; simpl; [reflexivity | now rewrite IH].
    + now rewrite IH.
  - now rewrite IH.
Qed.

(** Whatever the texts, the reader model and the query, a response of
    the common script is cut out of one of the texts it indexed. *)
Lemma template_response_origin {B : Backend} (texts : list string)
  (reader_model : option string) (query r : string) :
  Template.main texts reader_model query = Ok r ->
  exists t, In t texts /\ Substring r t.
Proof.
  rewrite template_main_eq.
  destruct (qa_answers _ _ _ _ _ _) as [|a rest] eqn:E; [discriminate|].
  intros [= <-].
  assert (Ha : In a (qa_answers Template.model reader_model query 3 1
                       (map (embed_document Template.model)
                          (map Document_of_content texts)))).
  { rewrite E. now left. }
  apply extracted_answer_origin in Ha as (Hd & _ & Hs).
  apply retrieved_from_indexed in Hd as (Ht & _).
  now exists (content (document a)).
Qed.

(** X2. Whenever the basic script prints a response, that response
    occurs verbatim in one of the five hard-coded snippets and is no
    longer than it, whatever the pretrained models are. *)
Theorem basic_response_is_cut_from_a_snippet {B : Backend} (r : string) :
  Basic.main = Ok r ->
  exists t, In t (values Basic.sample_texts)
            /\ Substring r t
            /\ String.length r <= String.length t.
Proof.
  change Basic.main with (Template.main (values Basic.sample_texts) None Basic.query).
  intros H. apply template_response_origin in H as (t & Ht & Hs).
  exists t. repeat split; try assumption. now apply Substring_length.
Qed.

Lemma basic_response_is_cut_from_a_snippet_on_toy_backend :
  @Basic.main toy_backend = Ok "of 2"
  /\ exists t, In t (values Basic.sample_texts)
               /\ Substring "of 2" t
               /\ String.length "of 2" <= String.length t.
Proof.
  split.
  - vm_compute. reflexivity.
  - apply (@basic_response_is_cut_from_a_snippet toy_backend "of 2").
    vm_compute. reflexivity.
Defined.

(** X3. Whenever the chunking script prints a response, that response
    occurs verbatim in one of the segments the splitter returned; it
    occurs in the original text as well if that segment does. *)
Theorem chunking_response_is_cut_from_a_segment {B : Backend} (r : string) :
  Chunking.main = Ok r ->
  exists s, In s Chunking.texts
            /\ Substring r s
            /\ (Substring s Chunking.text -> Substring r Chunking.text).
Proof.
  change Chunking.main
    with (Template.main Chunking.texts (Some "deepset/bert-base-uncased-squad2")
            Chunking.query).
  intros H. apply template_response_origin in H as (s & Hs & Hr).
  exists s. repeat split; try assumption.
  intros Ht. now apply Substring_trans with s.
Qed.

Lemma chunking_response_is_cut_from_a_segment_on_toy_backend :
  @Chunking.main toy_backend = Ok " 202"
  /\ exists s, In s (@Chunking.texts toy_backend)
               /\ Substring " 202" s
               /\ (Substring s Chunking.text -> Substring " 202" Chunking.text).
Proof.
  split.
  - vm_compute. reflexivity.
  - apply (@chunking_response_is_cut_from_a_segment toy_backend " 202").
    vm_compute. reflexivity.
Defined.

(** X5. If the splitter returns no segment, the chunking script indexes
    nothing, runs the reader on no document and ends in [IndexError]. *)
Theorem chunking_without_segments_fails {B : Backend} :
  Chunking.texts = [] ->
  reader_documents Chunking.indexing_pipeline Chunking.extractive_qa_pipeline
    Chunking.texts Chunking.qa_input = Ok []
  /\ Chunking.main = Raise IndexError.
Proof.
  intros H. split.
  - rewrite H. reflexivity.
  - rewrite chunking_main_eq. unfold Chunking.documents. rewrite H. reflexivity.
Qed.

Lemma chunking_without_segments_fails_on_empty_split :
  @Chunking.texts empty_split_backend = []
  /\ @reader_documents empty_split_backend Chunking.indexing_pipeline
       Chunking.extractive_qa_pipeline (@Chunking.texts empty_split_backend)
       Chunking.qa_input = Ok []
  /\ @Chunking.main empty_split_backend = Raise IndexError.
Proof.
  split.
  - reflexivity.
  - apply (@chunking_without_segments_fails empty_split_backend). reflexivity.
Defined.

Lemma indexed_contents {B : Backend} (model : string) (q : list Q)
  (texts : list string) :
  map content
    (filter_map (scored q) (map (embed_document model) (map Document_of_content texts)))
  = texts.
Proof.
  induction texts as [|t texts IH]; simpl; [reflexivity | now rewrite IH].
Qed.

Lemma retrieved_contents_distinct {B : Backend} (model : string)
  (texts : list string) (q : list Q) (top_k : nat) :
  NoDup texts ->
  NoDup (map content
           (embedding_retrieval
              (map (embed_document model) (map Document_of_content texts)) q top_k)).
Proof.
  intros H. unfold embedding_retrieval.
  set (S := sorted_reverse score_of
              (filter_map (scored q)
                 (map (embed_document model) (map Document_of_content texts)))).
  assert (HS : NoDup (map content S)).
  { apply Permutation_NoDup with texts; [|assumption].
    rewrite <- (indexed_contents model q texts) at 1.
    apply Permutation_sym, Permutation_map, sorted_reverse_perm. }
  rewrite <- (firstn_skipn top_k S), map_app in HS.
  now apply NoDup_app_remove_r in HS.
Qed.

Lemma reader_documents_of_distinct_texts {B : Backend} (texts : list string)
  (reader_model : option string) (query : string) :
  NoDup texts ->
  exists docs,
    reader_documents (Ok Template.indexing_graph)
      (Ok (Template.qa_graph reader_model)) texts (qa_data query 3 1) = Ok docs
    /\ length docs = Nat.min 3 (length texts)
    /\ NoDup (map content docs)
    /\ forall d, In d docs -> In (content d) texts.
Proof.
  intros H. eexists. split; [apply reader_documents_eq|].
  split; [apply retrieved_count|].
  split; [now apply retrieved_contents_distinct|].
  intros d Hd. now apply retrieved_from_indexed in Hd.
Qed.

(** X6. When the splitter's segments are pairwise distinct, as the five
    snippets of the basic script are, no indexed document is passed over
    by retrieval: the reader of the basic script is run on exactly three
    documents, the reader of the chunking script on three or, when there
    are fewer segments, on as many as there are; the documents hold
    pairwise distinct texts, each one of the indexed texts. *)
Theorem reader_is_run_on_three_indexed_documents {B : Backend} :
  NoDup Chunking.texts ->
  (exists docs,
     reader_documents Basic.indexing_pipeline Basic.extractive_qa_pipeline
       (values Basic.sample_texts) Basic.qa_input = Ok docs
     /\ length docs = 3
     /\ NoDup (map content docs)
     /\ forall d, In d docs -> In (content d) (values Basic.sample_texts))
  /\ (exists docs,
        reader_documents Chunking.indexing_pipeline Chunking.extractive_qa_pipeline
          Chunking.texts Chunking.qa_input = Ok docs
        /\ length docs = Nat.min 3 (length Chunking.texts)
        /\ NoDup (map content docs)
        /\ forall d, In d docs -> In (content d) Chunking.texts).
Proof.
  intros H. split.
  - exact (reader_documents_of_distinct_texts (values Basic.sample_texts) None
             Basic.query (proj2 sample_texts_distinct)).
  - exact (reader_documents_of_distinct_texts Chunking.texts
             (Some "deepset/bert-base-uncased-squad2") Chunking.query H).
Qed.

Lemma reader_is_run_on_three_indexed_documents_on_toy_backend :
  NoDup (@Chunking.texts toy_backend)
  /\ (exists docs,
        @reader_documents toy_backend Basic.indexing_pipeline
          Basic.extractive_qa_pipeline (values Basic.sample_texts) Basic.qa_input
        = Ok docs
        /\ length docs = 3
        /\ NoDup (map content docs)
        /\ forall d, In d docs -> In (content d) (values Basic.sample_texts))
  /\ (exists docs,
        @reader_documents toy_backend Chunking.indexing_pipeline
          Chunking.extractive_qa_pipeline (@Chunking.texts toy_backend)
          Chunking.qa_input
        = Ok docs
        /\ length docs = Nat.min 3 (length (@Chunking.texts toy_backend))
        /\ NoDup (map content docs)
        /\ forall d, In d docs -> In (content d) (@Chunking.texts toy_backend)).
Proof.
  assert (H : NoDup (@Chunking.texts toy_backend)).
  { change (@Chunking.texts toy_backend) with [Chunking.text].
    constructor; [intros [] | constructor]. }
  split; [exact H|].
  exact (@reader_is_run_on_three_indexed_documents toy_backend H).
Defined.

Lemma chunking_response_origin_aux {B : Backend} (r : string) :
  Chunking.main = Ok r -> exists s, In s Chunking.texts /\ Substring r s.
Proof.
  change Chunking.main
    with (Template.main Chunking.texts (Some "deepset/bert-base-uncased-squad2")
            Chunking.query).
  apply template_response_origin.
Qed.

(** X7. The responses the scripts' comments expect.  The basic script
    can print ["92%"] only when the fifth snippet is among the documents
    the reader is run on, since no other snippet contains it; the
    chunking script can print ["$500 billion"] only when some segment
    of the splitter contains the phrase whole.  Both responses are
    printed on a stand-in whose reading model finds the phrase. *)
Theorem expected_responses_need_their_passage {B : Backend} :
  (Basic.main = Ok "92%" ->
   exists docs,
     reader_documents Basic.indexing_pipeline Basic.extractive_qa_pipeline
       (values Basic.sample_texts) Basic.qa_input = Ok docs
     /\ In text5 (map content docs))
  /\ (Chunking.main = Ok "$500 billion" ->
      exists s, In s Chunking.texts /\ Substring "$500 billion" s)
  /\ @Basic.main (phrase_backend "92%") = Ok "92%"
  /\ @Chunking.main (phrase_backend "$500 billion") = Ok "$500 billion".
Proof.
  split; [|split; [|split; vm_compute; reflexivity]].
  - intros H. eexists.
    split; [exact (reader_documents_eq (values Basic.sample_texts) None Basic.query 3 1)|].
    rewrite basic_main_eq in H. unfold qa_answers in H.
    destruct (extract_answers _ _ _ _) as [|a rest] eqn:E; [discriminate H|].
    injection H as Hdata.
    assert (Ha : In a (extract_answers None Basic.query
                         (embedding_retrieval
                            (map (embed_document Basic.model) Basic.documents)
                            (encode Basic.model Basic.query) 3) 1)).
    { rewrite E. now left. }
    apply extracted_answer_origin in Ha as (Hd & _ & Hs).
    rewrite Hdata in Hs. apply occurs_complete in Hs.
    apply in_map_iff. exists (document a). split; [|exact Hd].
    apply retrieved_from_indexed in Hd as (Ht & _).
    simpl in Ht.
    destruct Ht as [Ht | [Ht | [Ht | [Ht | [Ht | []]]]]];
      rewrite <- Ht in Hs |- *;
      first [ reflexivity | vm_compute in Hs; discriminate Hs ].
  - intros H.
    destruct (chunking_response_origin_aux _ H) as (s & Hs & Hr).
    now exists s.
Qed.

(** ** The indexing steps, and what is best about the answer *)

Lemma indexing_graph_run_any_order {B : Backend} (docs : list Document)
  (store : DocumentStore) (cs : dict component) :
  Permutation cs (components Template.indexing_graph) ->
  run_traced {| components := cs;
                connections := connections Template.indexing_graph |}
    (Flat [("documents", VDocuments docs)]) store
  = Ok {| result := [("writer", [("documents_written", VInt (length docs))])];
          steps := [ ("embedder", [("documents", VDocuments docs)]);
                     ("writer",
                      [("documents",
                        VDocuments (map (embed_document Template.model) docs))]) ];
          store_after := store ++ map (embed_document Template.model) docs |}.
Proof.
  intros H. apply Permutation_sym, Permutation_length_2_inv in H.
  rewrite <- (length_map (embed_document Template.model) docs).
  destruct H as [-> | ->]; reflexivity.
Qed.

(** X8. In each script the indexing pipeline, run on documents of
    pairwise distinct content and a store that holds none of these
    contents, takes exactly two steps: the embedder on the documents of
    the run argument, then the writer on the embedder's output and not
    on the documents of the run argument, although the writer's input
    socket bears the same name [documents].  This holds whichever of the
    two components was added first. *)
Theorem indexing_pipeline_embeds_then_writes {B : Backend}
  (docs : list Document) (store : DocumentStore) :
  NoDup (map content docs) ->
  (forall d, In d docs -> ~ In (content d) (map content store)) ->
  (exists ip,
     Basic.indexing_pipeline = Ok ip
     /\ forall cs, Permutation cs (components ip) ->
          run_traced {| components := cs; connections := connections ip |}
            (Flat [("documents", VDocuments docs)]) store
          = Ok {| result := [("writer", [("documents_written", VInt (length docs))])];
                  steps :=
                    [ ("embedder", [("documents", VDocuments docs)]);
                      ("writer",
                       [("documents",
                         VDocuments (map (embed_document Basic.model) docs))]) ];
                  store_after := store ++ map (embed_document Basic.model) docs |})
  /\ (exists ip,
        Chunking.indexing_pipeline = Ok ip
        /\ forall cs, Permutation cs (components ip) ->
             run_traced {| components := cs; connections := connections ip |}
               (Flat [("documents", VDocuments docs)]) store
             = Ok {| result :=
                       [("writer", [("documents_written", VInt (length docs))])];
                     steps :=
                       [ ("embedder", [("documents", VDocuments docs)]);
                         ("writer",
                          [("documents",
                            VDocuments (map (embed_document Chunking.model) docs))]) ];
                     store_after :=
                       store ++ map (embed_document Chunking.model) docs |}).
Proof.
  intros _ _.
  split; exists Template.indexing_graph; (split; [reflexivity|]);
    intros cs H; exact (indexing_graph_run_any_order docs store cs H).
Qed.

Lemma indexing_pipeline_embeds_then_writes_on_toy_backend :
  NoDup (map content [Document_of_content "ab"; Document_of_content "cd"])
  /\ (forall d,
        In d [Document_of_content "ab"; Document_of_content "cd"] ->
        ~ In (content d) (map content [Document_of_content "ef"]))
  /\ exists ip,
       Basic.indexing_pipeline = Ok ip
       /\ forall cs, Permutation cs (components ip) ->
            @run_traced toy_backend
              {| components := cs; connections := connections ip |}
              (Flat [("documents",
                      VDocuments [Document_of_content "ab"; Document_of_content "cd"])])
              [Document_of_content "ef"]
            = Ok {| result := [("writer", [("documents_written", VInt 2)])];
                    steps :=
                      [ ("embedder",
                         [("documents",
                           VDocuments [Document_of_content "ab";
                                       Document_of_content "cd"])]);
                        ("writer",
                         [("documents",
                           VDocuments
                             (map (@embed_document toy_backend Basic.model)
                                [Document_of_content "ab";
                                 Document_of_content "cd"]))]) ];
                    store_after :=
                      [Document_of_content "ef"]
                      ++ map (@embed_document toy_backend Basic.model)
                           [Document_of_content "ab"; Document_of_content "cd"] |}.
Proof.
  assert (H1 : NoDup (map content [Document_of_content "ab"; Document_of_content "cd"])).
  { simpl. repeat constructor; simpl; intuition discriminate. }
  assert (H2 : forall d,
             In d [Document_of_content "ab"; Document_of_content "cd"] ->
             ~ In (content d) (map content [Document_of_content "ef"])).
  { intros d [<- | [<- | []]]; simpl; intuition discriminate. }
  split; [exact H1|]. split; [exact H2|].
  exact (proj1 (@indexing_pipeline_embeds_then_writes toy_backend
                  [Document_of_content "ab"; Document_of_content "cd"]
                  [Document_of_content "ef"] H1 H2)).
Defined.

(** The writer added first, the embedder second: the same two steps. *)
Example indexing_pipeline_reversed_components :
  @run_traced toy_backend
    {| components := rev (components Template.indexing_graph);
       connections := connections Template.indexing_graph |}
    (Flat [("documents", VDocuments [Document_of_content "ab"])]) []
  = Ok {| result := [("writer", [("documents_written", VInt 1)])];
          steps :=
            [ ("embedder", [("documents", VDocuments [Document_of_content "ab"])]);
              ("writer",
               [("documents",
                 VDocuments [@embed_document toy_backend Template.model
                               (Document_of_content "ab")])]) ];
          store_after :=
            [@embed_document toy_backend Template.model (Document_of_content "ab")] |}.
Proof. reflexivity. Qed.

Lemma sorted_reverse_head_max {A : Type} (key : A -> Q) (l : list A)
  (a : A) (tl : list A) :
  sorted_reverse key l = a :: tl -> forall x, In x l -> (key x <= key a)%Q.
Proof.
  intros E x Hx.
  apply (Permutation_in _ (Permutation_sym (sorted_reverse_perm key l))) in Hx.
  pose proof (sorted_reverse_descending key l) as Hs.
  rewrite E in Hx, Hs. inversion Hs as [|? ? _ Hall]; subst.
  destruct Hx as [<-|Hx]; [apply Qle_refl|].
  rewrite Forall_forall in Hall. now apply Hall.
Qed.

Lemma top_answer_is_best {B : Backend} (reader_model : option string)
  (query : string) (docs : list Document) (a : ExtractedAnswer)
  (rest : list ExtractedAnswer) :
  extract_answers reader_model query docs 1 = a :: rest ->
  (exists d s e,
     In d docs /\ In (s, e, answer_score a) (propose_spans reader_model query (content d))
     /\ data a = slice s e (content d))
  /\ forall d s e p,
       In d docs -> In (s, e, p) (propose_spans reader_model query (content d)) ->
       (p <= answer_score a)%Q.
Proof.
  intros E. split.
  - assert (Ha : In a (extract_answers reader_model query docs 1))
      by (rewrite E; now left).
    apply extracted_answer_origin in Ha as (Hd & Ha & _).
    unfold answers_in in Ha. apply in_map_iff in Ha as ([[s e] p] & <- & Hp).
    exists (document
              {| data := slice s e (content (document a));
                 answer_query := query; answer_score := p;
                 document := document a; span_start := s; span_end := e |}), s, e.
    simpl. repeat split; assumption.
  - intros d s e p Hd Hp. unfold extract_answers in E.
    destruct (sorted_reverse answer_score
                (flat_map (answers_in reader_model query) docs))
      as [|a' tl] eqn:Es; [discriminate E|].
    simpl in E. injection E as <- _.
    apply (sorted_reverse_head_max answer_score _ _ _ Es
             {| data := slice s e (content d); answer_query := query;
                answer_score := p; document := d;
                span_start := s; span_end := e |}).
    apply in_flat_map. exists d. split; [assumption|].
    unfold answers_in. apply in_map_iff. now exists (s, e, p).
Qed.

Lemma template_response_is_best {B : Backend} (texts : list string)
  (reader_model : option string) (query r : string) :
  Template.main texts reader_model query = Ok r ->
  exists docs d s e p,
    reader_documents (Ok Template.indexing_graph)
      (Ok (Template.qa_graph reader_model)) texts (qa_data query 3 1) = Ok docs
    /\ In d docs
    /\ In (s, e, p) (propose_spans reader_model query (content d))
    /\ r = slice s e (content d)
    /\ forall d' s' e' p',
         In d' docs ->
         In (s', e', p') (propose_spans reader_model query (content d')) ->
         (p' <= p)%Q.
Proof.
  rewrite template_main_eq. unfold qa_answers.
  destruct (extract_answers _ _ _ _) as [|a rest] eqn:E; [discriminate|].
  intros [= <-].
  destruct (top_answer_is_best _ _ _ _ _ E) as ((d & s & e & Hd & Hp & Hdata) & Hmax).
  eexists. exists d, s, e, (answer_score a).
  split; [apply reader_documents_eq|]. repeat split; assumption.
Qed.

(** X9. Whenever the basic script prints a response, the response is a
    span the reading model proposed in one of the documents the reader
    was run on, and no span the model proposed in any of those documents
    has a higher confidence. *)
Theorem basic_response_has_the_highest_confidence {B : Backend} (r : string) :
  Basic.main = Ok r ->
  exists docs d s e p,
    reader_documents Basic.indexing_pipeline Basic.extractive_qa_pipeline
      (values Basic.sample_texts) Basic.qa_input = Ok docs
    /\ In d docs
    /\ In (s, e, p) (propose_spans None Basic.query (content d))
    /\ r = slice s e (content d)
    /\ forall d' s' e' p',
         In d' docs ->
         In (s', e', p') (propose_spans None Basic.query (content d')) ->
         (p' <= p)%Q.
Proof.
  exact (template_response_is_best (values Basic.sample_texts) None Basic.query r).
Qed.

Lemma basic_response_has_the_highest_confidence_on_toy_backend :
  @Basic.main toy_backend = Ok "of 2"
  /\ exists docs d s e p,
       @reader_documents toy_backend Basic.indexing_pipeline
         Basic.extractive_qa_pipeline (values Basic.sample_texts) Basic.qa_input
       = Ok docs
       /\ In d docs
       /\ In (s, e, p) (@propose_spans toy_backend None Basic.query (content d))
       /\ "of 2" = slice s e (content d)
       /\ forall d' s' e' p',
            In d' docs ->
            In (s', e', p')
               (@propose_spans toy_backend None Basic.query (content d')) ->
            (p' <= p)%Q.
Proof.
  split.
  - vm_compute. reflexivity.
  - apply (@basic_response_has_the_highest_confidence toy_backend "of 2").
    vm_compute. reflexivity.
Defined.

(** X10. The same for the chunking script: a printed response is a span
    proposed in one of the documents the reader was run on, of the
    highest confidence among the spans proposed in those documents. *)
Theorem chunking_response_has_the_highest_confidence {B : Backend} (r : string) :
  Chunking.main = Ok r ->
  exists docs d s e p,
    reader_documents Chunking.indexing_pipeline Chunking.extractive_qa_pipeline
      Chunking.texts Chunking.qa_input = Ok docs
    /\ In d docs
    /\ In (s, e, p)
          (propose_spans (Some "deepset/bert-base-uncased-squad2")
             Chunking.query (content d))
    /\ r = slice s e (content d)
    /\ forall d' s' e' p',
         In d' docs ->
         In (s', e', p')
            (propose_spans (Some "deepset/bert-base-uncased-squad2")
               Chunking.query (content d')) ->
         (p' <= p)%Q.
Proof.
  exact (template_response_is_best Chunking.texts
           (Some "deepset/bert-base-uncased-squad2") Chunking.query r).
Qed.

Lemma chunking_response_has_the_highest_confidence_on_toy_backend :
  @Chunking.main toy_backend = Ok " 202"
  /\ exists docs d s e p,
       @reader_documents toy_backend Chunking.indexing_pipeline
         Chunking.extractive_qa_pipeline (@Chunking.texts toy_backend)
         Chunking.qa_input
       = Ok docs
       /\ In d docs
       /\ In (s, e, p)
             (@propose_spans toy_backend (Some "deepset/bert-base-uncased-squad2")
                Chunking.query (content d))
       /\ " 202" = slice s e (content d)
       /\ forall d' s' e' p',
            In d' docs ->
            In (s', e', p')
               (@propose_spans toy_backend (Some "deepset/bert-base-uncased-squad2")
                  Chunking.query (content d')) ->
            (p' <= p)%Q.
Proof.
  split.
  - vm_compute. reflexivity.
  - apply (@chunking_response_has_the_highest_confidence toy_backend " 202").
    vm_compute. reflexivity.
Defined.

(** ** The documents retrieved are the nearest ones *)

Lemma descending_app {A : Type} (key : A -> Q) (l1 l2 : list A) :
  descending key (l1 ++ l2) ->
  forall x y, In x l1 -> In y l2 -> (key y <= key x)%Q.
Proof.
  unfold descending. induction l1 as [|a l1 IH]; simpl; intros H x y Hx Hy.
  - contradiction.
  - inversion H as [|? ? Hl Ha]; subst.
    destruct Hx as [<-|Hx].
    + rewrite Forall_forall in Ha. apply Ha, in_or_app. now right.
    + now apply IH.
Qed.

Lemma indexed_score {B : Backend} (model : string) (q : list Q)
  (texts : list string) (d : Document) :
  In d (filter_map (scored q)
          (map (embed_document model) (map Document_of_content texts))) ->
  score_of d = similarity q (encode model (content d)).
Proof.
  intros H. apply filter_map_In in H as (d0 & Hin & Hs).
  apply scored_inv in Hs as (v & E0 & Ec & _ & Es).
  apply in_map_iff in Hin as (d1 & <- & Hin).
  apply in_map_iff in Hin as (t & <- & _).
  simpl in *. injection E0 as <-.
  unfold score_of. now rewrite Es, Ec.
Qed.

Lemma retrieved_are_nearest {B : Backend} (texts : list string)
  (reader_model : option string) (query : string) :
  exists docs,
    reader_documents (Ok Template.indexing_graph)
      (Ok (Template.qa_graph reader_model)) texts (qa_data query 3 1) = Ok docs
    /\ length docs = Nat.min 3 (length texts)
    /\ forall t d,
         In t texts -> ~ In t (map content docs) -> In d docs ->
         (similarity (encode Template.model query) (encode Template.model t)
          <= similarity (encode Template.model query)
               (encode Template.model (content d)))%Q.
Proof.
  set (q := encode Template.model query).
  set (store := map (embed_document Template.model) (map Document_of_content texts)).
  set (S := sorted_reverse score_of (filter_map (scored q) store)).
  exists (firstn 3 S).
  split; [exact (reader_documents_eq texts reader_model query 3 1)|].
  split; [exact (retrieved_count Template.model texts q 3)|].
  intros t d Ht Hout Hd.
  assert (HS : forall x, In x S ->
                 score_of x = similarity q (encode Template.model (content x))).
  { intros x Hx. apply indexed_score with texts.
    now apply (Permutation_in _ (sorted_reverse_perm score_of _)) in Hx. }
  assert (Hin : In t (map content S)).
  { apply Permutation_in with texts; [|assumption].
    rewrite <- (indexed_contents Template.model q texts) at 1.
    apply Permutation_sym, Permutation_map, sorted_reverse_perm. }
  rewrite <- (firstn_skipn 3 S), map_app in Hin.
  apply in_app_or in Hin as [Hin | Hin]; [contradiction|].
  apply in_map_iff in Hin as (d' & <- & Hd').
  assert (Hdesc : descending score_of (firstn 3 S ++ skipn 3 S)).
  { rewrite firstn_skipn. apply sorted_reverse_descending. }
  pose proof (descending_app _ _ _ Hdesc d d' Hd Hd') as Hle.
  rewrite (HS d'), (HS d) in Hle; [exact Hle | |].
  - rewrite <- (firstn_skipn 3 S). apply in_or_app. now left.
  - rewrite <- (firstn_skipn 3 S). apply in_or_app. now right.
Qed.

(** X11. When the splitter's segments are pairwise distinct, the
    documents the reader is run on are the nearest ones in each script:
    there are three of them (or as many as there are indexed texts, if
    fewer), and every indexed text that is not among them has a vector
    no more similar to the query vector than the vector of each text
    that is. *)
Theorem reader_is_run_on_the_nearest_documents {B : Backend} :
  NoDup Chunking.texts ->
  (exists docs,
     reader_documents Basic.indexing_pipeline Basic.extractive_qa_pipeline
       (values Basic.sample_texts) Basic.qa_input = Ok docs
     /\ length docs = 3
     /\ forall t d,
          In t (values Basic.sample_texts) -> ~ In t (map content docs) ->
          In d docs ->
          (similarity (encode Basic.model Basic.query) (encode Basic.model t)
           <= similarity (encode Basic.model Basic.query)
                (encode Basic.model (content d)))%Q)
  /\ (exists docs,
        reader_documents Chunking.indexing_pipeline Chunking.extractive_qa_pipeline
          Chunking.texts Chunking.qa_input = Ok docs
        /\ length docs = Nat.min 3 (length Chunking.texts)
        /\ forall t d,
             In t Chunking.texts -> ~ In t (map content docs) -> In d docs ->
             (similarity (encode Chunking.model Chunking.query)
                (encode Chunking.model t)
              <= similarity (encode Chunking.model Chunking.query)
                   (encode Chunking.model (content d)))%Q).
Proof.
  intros _. split.
  - exact (retrieved_are_nearest (values Basic.sample_texts) None Basic.query).
  - exact (retrieved_are_nearest Chunking.texts
             (Some "deepset/bert-base-uncased-squad2") Chunking.query).
Qed.

Lemma reader_is_run_on_the_nearest_documents_on_toy_backend :
  NoDup (@Chunking.texts toy_backend)
  /\ exists docs,
       @reader_documents toy_backend Basic.indexing_pipeline
         Basic.extractive_qa_pipeline (values Basic.sample_texts) Basic.qa_input
       = Ok docs
       /\ length docs = 3
       /\ forall t d,
            In t (values Basic.sample_texts) -> ~ In t (map content docs) ->
            In d docs ->
            (@similarity toy_backend
               (@encode toy_backend Basic.model Basic.query)
               (@encode toy_backend Basic.model t)
             <= @similarity toy_backend
                  (@encode toy_backend Basic.model Basic.query)
                  (@encode toy_backend Basic.model (content d)))%Q.
Proof.
  assert (H : NoDup (@Chunking.texts toy_backend)).
  { change (@Chunking.texts toy_backend) with [Chunking.text].
    constructor; [intros [] | constructor]. }
  split; [exact H|].
  exact (proj1 (@reader_is_run_on_the_nearest_documents toy_backend H)).
Defined.
